(** * FloatChat (ocean.py): the conversation log and the export tab

    A shallow embedding of the parts of [ocean.py] that touch
    [st.session_state.messages] (the seeding of the log, the quick-query
    buttons and the Send button) and of the export tab (the format
    branch and the CSV download), with the properties of the
    specification stated over them.

    Python [str] values are sequences of Unicode code points; the
    script is a sequence of statements run from top to bottom on every
    interaction, ended early by [st.rerun()]. *)

From Stdlib Require Import String Ascii NArith List Lia Bool.
From stdpp Require Import base list.
Import ListNotations.

Local Open Scope N_scope.

(** ** Python strings *)

Module Str.

(** A Python [str]: a sequence of code points. *)
Definition str := list N.

(** String literals of the source file, which is UTF-8 encoded: the
    bytes of a literal are decoded into code points. A malformed or
    truncated sequence keeps its bytes as they are (no literal of the
    source has one). *)
Fixpoint utf8_decode (bs : list N) : str :=
  match bs with
  | [] => []
  | b0 :: rest =>
      if b0 <? 0x80 then b0 :: utf8_decode rest
      else if (0xC0 <=? b0) && (b0 <? 0xE0) then
        match rest with
        | b1 :: rest1 =>
            (N.lor (N.shiftl (N.land b0 0x1F) 6) (N.land b1 0x3F))
              :: utf8_decode rest1
        | [] => [b0]
        end
      else if (0xE0 <=? b0) && (b0 <? 0xF0) then
        match rest with
        | b1 :: b2 :: rest2 =>
            (N.lor (N.shiftl (N.land b0 0x0F) 12)
               (N.lor (N.shiftl (N.land b1 0x3F) 6) (N.land b2 0x3F)))
              :: utf8_decode rest2
        | _ => b0 :: rest
        end
      else if (0xF0 <=? b0) && (b0 <? 0xF8) then
        match rest with
        | b1 :: b2 :: b3 :: rest3 =>
            (N.lor (N.shiftl (N.land b0 0x07) 18)
               (N.lor (N.shiftl (N.land b1 0x3F) 12)
                  (N.lor (N.shiftl (N.land b2 0x3F) 6) (N.land b3 0x3F))))
              :: utf8_decode rest3
        | _ => b0 :: rest
        end
      else b0 :: utf8_decode rest
  end.

Definition bytes_of_literal (s : string) : list N :=
  List.map N_of_ascii (list_ascii_of_string s).

(** [py "..."] is the [str] a Python literal with that text denotes. *)
Definition py (s : string) : str := utf8_decode (bytes_of_literal s).

(** [s1 == s2] on [str]. *)
Definition eqb (s1 s2 : str) : bool := bool_decide (s1 = s2).

(** Truth value of a [str] in a condition: non-empty. *)
Definition truthy (s : str) : bool :=
  match s with [] => false | _ :: _ => true end.

(** The white space of [str.strip()] without argument: the code points
    for which [str.isspace] holds. *)
Definition isspace (c : N) : bool :=
  ((0x09 <=? c) && (c <=? 0x0D))
  || ((0x1C <=? c) && (c <=? 0x20))
  || (c =? 0x85) || (c =? 0xA0) || (c =? 0x1680)
  || ((0x2000 <=? c) && (c <=? 0x200A))
  || (c =? 0x2028) || (c =? 0x2029) || (c =? 0x202F)
  || (c =? 0x205F) || (c =? 0x3000).

Fixpoint lstrip (s : str) : str :=
  match s with
  | [] => []
  | c :: rest => if isspace c then lstrip rest else s
  end.

Definition rstrip (s : str) : str := rev (lstrip (rev s)).

(** [s.strip()]. *)
Definition strip (s : str) : str := rstrip (lstrip s).

(** [sub in s]: [sub] occurs in [s] as a contiguous run. *)
Definition contains (sub s : str) : Prop :=
  exists before after, s = before ++ sub ++ after.

(** [sep.join(parts)]. *)
Fixpoint join (sep : str) (parts : list str) : str :=
  match parts with
  | [] => []
  | [p] => p
  | p :: rest => p ++ sep ++ join sep rest
  end.

(** Decimal digits of a natural number, as [str(n)] and [f"{n}"] give. *)
Definition digit (n : nat) : N := 48 + N.of_nat (n mod 10).

Fixpoint decimal_fuel (fuel n : nat) (acc : str) : str :=
  match fuel with
  | O => acc
  | S fuel' =>
      let acc' := digit n :: acc in
      if (n <? 10)%nat then acc' else decimal_fuel fuel' (n / 10)%nat acc'
  end.

Definition decimal (n : nat) : str := decimal_fuel (S n) n [].

End Str.

Import Str.

Local Open Scope string_scope.
Local Open Scope list_scope.

(** ** The message log in [st.session_state] *)

(** A message is the dict [{"role": .., "content": .., "timestamp": ..}]. *)
Record message := Message {
  role : str;
  content : str;
  timestamp : str
}.

(** [st.session_state], as far as the chat goes: the key ["messages"] is
    absent ([None]) until the script seeds it. *)
Record session_state := SessionState {
  messages : option (list message)
}.

(** The state of a session that has not run the script yet. *)
Definition new_session : session_state := {| messages := None |}.

(** What the widgets return in one run of the script: [st.button] is
    true for the button that triggered the run, [st.text_input] gives
    the text in the box. *)
Record widgets := Widgets {
  button : str -> bool;
  user_input : str
}.

(** The two readings of [datetime.now().strftime("%H:%M")] a handler takes. *)
Record clock := Clock {
  now : str;
  now2 : str
}.

(** ** Running the script *)

Module Script.

(** [st.rerun()] ends the run by raising; reading
    [st.session_state.messages] before it is set raises too. *)
Inductive exn := RerunException | AttributeError.

Inductive result (A : Type) :=
| Ok (a : A)
| Raise (e : exn).
Arguments Ok {A} a.
Arguments Raise {A} e.

(** A piece of the script: it reads and updates the session state. *)
Definition script (A : Type) := session_state -> result A * session_state.

Definition ret {A} (a : A) : script A := fun s => (Ok a, s).

Definition bind {A B} (m : script A) (k : A -> script B) : script B :=
  fun s =>
    match m s with
    | (Ok a, s') => k a s'
    | (Raise e, s') => (Raise e, s')
    end.

Definition raise {A} (e : exn) : script A := fun s => (Raise e, s).

Definition exec {A} (m : script A) (s : session_state) : session_state :=
  snd (m s).

End Script.

Import Script.

Declare Scope script_scope.
Delimit Scope script_scope with script.
Bind Scope script_scope with script.
Notation "m1 ;; m2" := (bind m1 (fun _ => m2))
  (at level 100, m2 at level 200, right associativity) : script_scope.
Local Open Scope script_scope.

(** [st.session_state.messages.append(m)]. *)
Definition messages_append (m : message) : script unit :=
  fun s =>
    match messages s with
    | Some log => (Ok tt, {| messages := Some (log ++ [m]) |})
    | None => (Raise AttributeError, s)
    end.

(** [st.rerun()]. *)
Definition st_rerun : script unit := raise RerunException.

Definition greeting : message :=
  {| role := py "assistant";
     content := py "Hello! I'm your ocean data assistant. How can I help you explore ARGO data today?";
     timestamp := py "10:00 AM" |}.

(** [if "messages" not in st.session_state: st.session_state.messages = [...]] *)
Definition initialize : script unit :=
  fun s =>
    match messages s with
    | None => (Ok tt, {| messages := Some [greeting] |})
    | Some _ => (Ok tt, s)
    end.

Definition suggested_queries : list str :=
  [ py "Show floats near Hawaii";
    py "Salinity trends last 6 months";
    py "Temperature at 200m depth";
    py "Compare BGC parameters" ].

(** The dict literal [responses], in the order it is written. *)
Definition responses : list (str * str) :=
  [ (py "Show floats near Hawaii",
     py "I found 12 ARGO floats near Hawaii in the last month. Here are their trajectories and data profiles.");
    (py "Salinity trends last 6 months",
     py "Salinity has shown a slight decrease of 0.2 PSU in the Pacific Ocean over the last 6 months. Here's the trend analysis.");
    (py "Temperature at 200m depth",
     py "The average temperature at 200m depth is 15.3°C across all ARGO floats. Here's the spatial distribution.");
    (py "Compare BGC parameters",
     py "I've compared Bio-Geo-Chemical parameters across different ocean basins. The Indian Ocean shows higher chlorophyll concentrations.") ].

(** [d[key]] when present. *)
Fixpoint dict_lookup (d : list (str * str)) (key : str) : option str :=
  match d with
  | [] => None
  | (k, v) :: rest => if eqb k key then Some v else dict_lookup rest key
  end.

(** [d.get(key, dflt)]. *)
Definition dict_get (d : list (str * str)) (key dflt : str) : str :=
  match dict_lookup d key with
  | Some v => v
  | None => dflt
  end.

(** [key in d]. *)
Definition dict_mem (d : list (str * str)) (key : str) : bool :=
  match dict_lookup d key with Some _ => true | None => false end.

(** [ai_resp] of the quick-query handler (line 169). *)
Definition ai_resp (query : str) : str :=
  dict_get responses query
    (py "Here are the results visualized on the map and graphs.").

(** [ai_response] of the Send handler (line 188). *)
Definition ai_response (user_input : str) : str :=
  py "I'm processing your request for '" ++ user_input
    ++ py "'. Here are the results visualized on the map and graphs.".

(** The body of [if st.button(query, key=f"quick_{i}"):]. *)
Definition quick_query_handler (clk : clock) (query : str) : script unit :=
  messages_append
    {| role := py "user"; content := query; timestamp := now clk |} ;;
  messages_append
    {| role := py "assistant"; content := ai_resp query;
       timestamp := now2 clk |} ;;
  st_rerun.

(** [f"quick_{i}"]. *)
Definition quick_key (i : nat) : str := py "quick_" ++ decimal i.

(** [enumerate(l)], counting from [start]. *)
Fixpoint enumerate_from {A} (start : nat) (l : list A) : list (nat * A) :=
  match l with
  | [] => []
  | x :: rest => (start, x) :: enumerate_from (S start) rest
  end.

Definition enumerate {A} (l : list A) : list (nat * A) := enumerate_from 0 l.

(** [for i, query in enumerate(suggested_queries): if st.button(..): ..] *)
Fixpoint quick_query_loop (w : widgets) (clk : clock)
    (items : list (nat * str)) : script unit :=
  match items with
  | [] => ret tt
  | (i, query) :: rest =>
      (if button w (quick_key i)
       then quick_query_handler clk query
       else ret tt) ;;
      quick_query_loop w clk rest
  end.

(** The guard of the Send handler:
    [user_input and user_input.strip() != ""]. *)
Definition send_guard (text : str) : bool :=
  truthy text && negb (eqb (strip text) (py "")).

(** The body of [if st.button("Send", key="send_button"):]. *)
Definition send_button_handler (w : widgets) (clk : clock) : script unit :=
  if send_guard (user_input w) then
    messages_append
      {| role := py "user"; content := user_input w; timestamp := now clk |} ;;
    messages_append
      {| role := py "assistant"; content := ai_response (user_input w);
         timestamp := now2 clk |} ;;
    st_rerun
  else ret tt.

(** One run of the script, top to bottom, as far as the log goes. *)
Definition script_run (w : widgets) (clk : clock) : script unit :=
  initialize ;;
  quick_query_loop w clk (enumerate suggested_queries) ;;
  (if button w (py "send_button")
   then send_button_handler w clk
   else ret tt).

(** The run that [st.rerun()] starts: no button is pressed in it, the
    text box keeps its text. *)
Definition no_click (w : widgets) : widgets :=
  {| button := fun _ => false; user_input := user_input w |}.

(** One interaction of the user: the run it triggers and, when that run
    ends in [st.rerun()], the run that follows. *)
Definition interaction (w : widgets) (clk : clock) : script unit :=
  fun s =>
    match script_run w clk s with
    | (Raise RerunException, s') => script_run (no_click w) clk s'
    | r => r
    end.

(** The widget states of the two ways to ask: a click on the quick-query
    button number [i], and a click on Send with [text] in the box. *)
Definition click_quick (i : nat) (text : str) : widgets :=
  {| button := fun key => eqb key (quick_key i); user_input := text |}.

Definition click_send (text : str) : widgets :=
  {| button := fun key => eqb key (py "send_button"); user_input := text |}.

(** The log of a state; empty while the key is absent. *)
Definition log_of (s : session_state) : list message :=
  match messages s with Some log => log | None => [] end.

(** What a run finds in the log before it appends: the seeded greeting
    on the first run, the log as it stands otherwise. *)
Definition log_at_start (s : session_state) : list message :=
  match messages s with Some log => log | None => [greeting] end.

(** The first quick-query button, in the order of the loop, that is
    pressed in this run. *)
Fixpoint first_clicked (w : widgets) (items : list (nat * str))
    : option (nat * str) :=
  match items with
  | [] => None
  | (i, query) :: rest =>
      if button w (quick_key i) then Some (i, query)
      else first_clicked w rest
  end.

Definition user_message (text : str) (clk : clock) : message :=
  {| role := py "user"; content := text; timestamp := now clk |}.

Definition assistant_message (text : str) (clk : clock) : message :=
  {| role := py "assistant"; content := text; timestamp := now2 clk |}.

(** The messages one run appends. *)
Definition appended (w : widgets) (clk : clock) : list message :=
  match first_clicked w (enumerate suggested_queries) with
  | Some (_, query) =>
      [user_message query clk; assistant_message (ai_resp query) clk]
  | None =>
      if button w (py "send_button") && send_guard (user_input w)
      then [user_message (user_input w) clk;
            assistant_message (ai_response (user_input w)) clk]
      else []
  end.

(** A run is accepted when it appends to the log. *)
Definition accepted (w : widgets) : bool :=
  match first_clicked w (enumerate suggested_queries) with
  | Some _ => true
  | None => button w (py "send_button") && send_guard (user_input w)
  end.

(** A session: the interactions of one user, in order. *)
Fixpoint session (inputs : list (widgets * clock)) (s : session_state)
    : session_state :=
  match inputs with
  | [] => s
  | (w, clk) :: rest => session rest (exec (interaction w clk) s)
  end.

(** Everything a session appends, in order. *)
Definition appended_all (inputs : list (widgets * clock)) : list message :=
  List.concat (List.map (fun i => appended (fst i) (snd i)) inputs).

Definition count_accepted (inputs : list (widgets * clock)) : nat :=
  length (List.filter (fun i => accepted (fst i)) inputs).

(** The state of a session whose log is [log]. *)
Definition with_log (log : list message) : session_state :=
  {| messages := Some log |}.

(** User and assistant messages in turn, a user message first. *)
Inductive paired : list message -> Prop :=
| paired_nil : paired []
| paired_cons (u a : message) (rest : list message) :
    role u = py "user" -> role a = py "assistant" -> paired rest ->
    paired (u :: a :: rest).

(** ** The export tab *)

Module ExportTab.

(** [s.split(sep)] for a one-character separator. *)
Fixpoint split_on (sep : N) (s : str) : list str :=
  match s with
  | [] => [[]]
  | c :: rest =>
      if c =? sep then [] :: split_on sep rest
      else match split_on sep rest with
           | field :: fields => (c :: field) :: fields
           | [] => [[c]]
           end
  end%N.

(** [sep not in field]. *)
Definition no_sep (sep : N) (field : str) : bool :=
  forallb (fun c => negb (c =? sep)%N) field.

(** [data.encode()]: the UTF-8 bytes of a [str], which is what
    [st.download_button] serves when [data] is a [str]. *)
Definition utf8_encode_char (c : N) : list N :=
  (if c <? 0x80 then [c]
   else if c <? 0x800 then
     [N.lor 0xC0 (N.shiftr c 6); N.lor 0x80 (N.land c 0x3F)]
   else if c <? 0x10000 then
     [N.lor 0xE0 (N.shiftr c 12);
      N.lor 0x80 (N.land (N.shiftr c 6) 0x3F);
      N.lor 0x80 (N.land c 0x3F)]
   else
     [N.lor 0xF0 (N.shiftr c 18);
      N.lor 0x80 (N.land (N.shiftr c 12) 0x3F);
      N.lor 0x80 (N.land (N.shiftr c 6) 0x3F);
      N.lor 0x80 (N.land c 0x3F)])%N.

(** Surrogates have no UTF-8 form: [encode] raises on them. *)
Definition encodable (c : N) : bool :=
  ((c <? 0xD800) || ((0xDFFF <? c) && (c <? 0x110000)))%N.

Definition utf8_encode (s : str) : option (list N) :=
  if forallb encodable s
  then Some (List.concat (List.map utf8_encode_char s))
  else None.

Section Frames.

(** The cells of the frame are pandas timestamps and floats; they
    are kept abstract, with the text the CSV writer prints for one. *)
Context {value : Type}.
Variable csv_repr : value -> str.

(** [os.linesep], the default line terminator of [to_csv]. *)
Variable linesep : str.

(** A [pd.DataFrame] built from a dict of columns, in dict order. *)
Record DataFrame := { columns : list (str * list value) }.

Definition column_names (df : DataFrame) : list str :=
  List.map fst (columns df).

Definition nrows (df : DataFrame) : nat :=
  match columns df with
  | [] => O
  | (_, cells) :: _ => length cells
  end.

(** The cells of row [k], one per column. *)
Definition row (df : DataFrame) (k : nat) : list value :=
  flat_map (fun col => match snd col !! k with
                       | Some v => [v]
                       | None => []
                       end) (columns df).

(** [df.to_csv(index=index)] with the other options at their
    defaults: a header line of the column names, then one line per
    row, fields separated by commas; with [index] the row label
    comes first, under an empty header field. *)
Definition csv_header (index : bool) (df : DataFrame) : str :=
  join (py ",") ((if index then [py ""] else []) ++ column_names df).

Definition csv_row (index : bool) (df : DataFrame) (k : nat) : str :=
  join (py ",")
    ((if index then [decimal k] else []) ++ List.map csv_repr (row df k)).

Definition to_csv (index : bool) (df : DataFrame) : str :=
  csv_header index df ++ linesep
    ++ List.concat
         (List.map (fun k => csv_row index df k ++ linesep)
            (seq 0 (nrows df))).

(** What the tab draws. *)
Inductive element :=
| Markdown (body : str)
| Info (body : str)
| Success (body : str)
| Warning (body : str)
| DownloadButton (label data file_name mime : str)
| Dataframe (df : DataFrame).

(** The widgets of the tab. *)
Record export_widgets := ExportWidgets {
  export_format : str;
  data_range : str;
  include_metadata : bool;
  generate_export : bool
}.

(** Where the sample comes from: the days of
    [pd.date_range(end=today, periods=10, freq="D")] and the draws
    of [random.uniform], in the order they are made. *)
Record sample_source := SampleSource {
  date_range : nat -> value;
  uniform : nat -> value
}.

(** [[random.uniform(..) for _ in range(10)]], the draws starting
    at number [first]. *)
Definition draws (src : sample_source) (first : nat) : list value :=
  List.map (uniform src) (seq first 10).

Definition sample_data (src : sample_source) : DataFrame :=
  {| columns :=
       [ (py "date", List.map (date_range src) (seq 0 10));
         (py "latitude", draws src 0);
         (py "longitude", draws src 10);
         (py "temperature", draws src 20);
         (py "salinity", draws src 30);
         (py "depth", draws src 40) ] |}.

(** The left column of the tab. *)
Definition export_options (w : export_widgets) : list element :=
  [Markdown (py "### Export Options")]
    ++ (if generate_export w
        then [Success (py "Your data is ready for download!")]
        else []).

(** The branch on [export_format] (lines 351-357). *)
Definition export_branch (w : export_widgets) (df : DataFrame)
    : list element :=
  if eqb (export_format w) (py "CSV") then
    let csv := to_csv false df in
    [DownloadButton (py "Download CSV") csv (py "argo_data.csv")
       (py "text/csv")]
  else if eqb (export_format w) (py "Excel") then
    [Warning (py "Excel export requires additional setup. Please use CSV format for now.")]
  else
    [Warning (export_format w
                ++ py " export requires additional setup. Please use CSV format for now.")].

(** The right column of the tab. *)
Definition export_download (w : export_widgets) (df : DataFrame)
    : list element :=
  [Markdown (py "### Download");
   Info (py "Click the button below to download your data in the selected format.")]
    ++ export_branch w df.

(** [with tab3:], everything it draws, in order. *)
Definition export_tab (w : export_widgets) (src : sample_source)
    : list element :=
  let df := sample_data src in
  [Markdown (py "## 📥 Data Export")]
    ++ export_options w
    ++ export_download w df
    ++ [Markdown (py "### Data Preview"); Dataframe df].

Definition is_download (e : element) : bool :=
  match e with DownloadButton _ _ _ _ => true | _ => false end.

(** The six cells of record [k] of the sample. *)
Definition sample_record (src : sample_source) (k : nat) : list value :=
  [ date_range src k; uniform src k; uniform src (10 + k);
    uniform src (20 + k); uniform src (30 + k); uniform src (40 + k) ].

(** A character that can stand in an unquoted CSV field and is one
    byte in UTF-8. *)
Definition field_char (c : N) : bool :=
  ((c <? 0x80) && negb (c =? 44) && negb (c =? 34)
   && negb (c =? 10) && negb (c =? 13))%N.

Definition line_char (c : N) : bool :=
  (negb (c =? 10) && negb (c =? 13))%N.

Definition ascii_char (c : N) : bool := (c <? 0x80)%N.

(** The bytes of the file a download button serves. *)
Definition served_bytes (e : element) : option (list N) :=
  match e with
  | DownloadButton _ data _ _ => utf8_encode data
  | _ => None
  end.

End Frames.

End ExportTab.

(** ** The chat panel *)

Module ChatView.

(** The double quote and the line feed. *)
Definition dq : str := [34%N].
Definition lf : str := [10%N].

(** [s.replace(old, new)] where [old] is one character. *)
Fixpoint replace_char (old : N) (new s : str) : str :=
  match s with
  | [] => []
  | c :: rest =>
      if (c =? old)%N then new ++ replace_char old new rest
      else c :: replace_char old new rest
  end.

(** [role_class]: every message of the log has the key ["role"], so the
    default of [msg.get("role", "")] is not used. *)
Definition role_class (msg : message) : str :=
  if eqb (role msg) (py "assistant") then py "assistant" else py "user".

(** [str(msg.get("content", "")).replace("\n", "<br>")]. *)
Definition shown_content (msg : message) : str :=
  replace_char 10 (py "<br>") (content msg).

(** The first element of [chat_html_parts]. *)
Definition chat_open : str :=
  py "<div class=" ++ dq ++ py "chat-container" ++ dq
    ++ py " id=" ++ dq ++ py "chat-container" ++ dq ++ py ">".

Definition chat_close : str := py "</div>".

(** The f-string appended for one message (lines 113-118). *)
Definition chat_message (msg : message) : str :=
  (py "<div class=" ++ dq ++ py "chat-message " ++ role_class msg ++ dq
     ++ py ">")
    ++ (py "<div class=" ++ dq ++ py "message-content" ++ dq ++ py ">"
          ++ shown_content msg ++ py "</div>")
    ++ (py "<div class=" ++ dq ++ py "timestamp" ++ dq ++ py ">"
          ++ timestamp msg ++ py "</div>")
    ++ py "</div>".

(** [chat_html_parts] after the loop and the closing tag (lines 105-121). *)
Definition chat_html_parts (log : list message) : list str :=
  fold_left (fun parts msg => parts ++ [chat_message msg]) log [chat_open]
    ++ [chat_close].

(** [chat_html = "\n".join(chat_html_parts)]. *)
Definition chat_html (log : list message) : str :=
  join lf (chat_html_parts log).

End ChatView.

(** ** Reading a run *)

(** The query a run accepts, when it accepts one. *)
Definition accepted_query (w : widgets) : option str :=
  match first_clicked w (enumerate suggested_queries) with
  | Some (_, query) => Some query
  | None =>
      if button w (py "send_button") && send_guard (user_input w)
      then Some (user_input w)
      else None
  end.

(** [msg["role"] == "user"]. *)
Definition is_user (msg : message) : bool := eqb (role msg) (py "user").

(** The accepted queries of a session, in order. *)
Fixpoint accepted_queries (inputs : list (widgets * clock)) : list str :=
  match inputs with
  | [] => []
  | (w, _) :: rest =>
      match accepted_query w with
      | Some q => q :: accepted_queries rest
      | None => accepted_queries rest
      end
  end.

(** The default of [responses.get] at line 169. *)
Definition quick_default : str :=
  py "Here are the results visualized on the map and graphs.".

Definition is_warning {value : Type} (e : ExportTab.element (value := value))
    : bool :=
  match e with ExportTab.Warning _ => true | _ => false end.

Definition is_success {value : Type} (e : ExportTab.element (value := value))
    : bool :=
  match e with ExportTab.Success _ => true | _ => false end.

(** The widgets of the export tab with "Generate Export" pressed or not. *)
Definition with_generate (pressed : bool) (w : ExportTab.export_widgets)
    : ExportTab.export_widgets :=
  {| ExportTab.export_format := ExportTab.export_format w;
     ExportTab.data_range := ExportTab.data_range w;
     ExportTab.include_metadata := ExportTab.include_metadata w;
     ExportTab.generate_export := pressed |}.

(** ** Facts about strings *)

Section StrFacts.

Lemma lstrip_nil_iff (s : str) :
  lstrip s = [] <-> forallb isspace s = true.
Proof.
  induction s as [|c s IH]; simpl; [tauto|].
  destruct (isspace c); simpl; [exact IH|].
  split; intro H; discriminate H.
Qed.

Lemma lstrip_head (s : str) (c : N) (rest : str) :
  lstrip s = c :: rest -> isspace c = false.
Proof.
  induction s as [|d s IH]; simpl; [discriminate|].
  destruct (isspace d) eqn:E; [exact IH|].
  intros [= <- _]. exact E.
Qed.

Lemma forallb_rev (f : N -> bool) (s : str) :
  forallb f (rev s) = forallb f s.
Proof.
  induction s as [|c s IH]; [reflexivity|].
  simpl. rewrite forallb_app, IH. simpl.
  destruct (f c), (forallb f s); reflexivity.
Qed.

Lemma strip_nil_iff (s : str) :
  strip s = [] <-> forallb isspace s = true.
Proof.
  unfold strip, rstrip. split.
  - intro H.
    assert (H1 : lstrip (rev (lstrip s)) = []).
    { rewrite <- (rev_involutive (lstrip _)), H. reflexivity. }
    apply lstrip_nil_iff in H1. rewrite forallb_rev in H1.
    destruct (lstrip s) as [|c rest] eqn:E.
    + apply lstrip_nil_iff. exact E.
    + apply lstrip_head in E. simpl in H1. rewrite E in H1. discriminate.
  - intro H. apply lstrip_nil_iff in H. rewrite H. reflexivity.
Qed.

Lemma eqb_eq (s1 s2 : str) : eqb s1 s2 = true <-> s1 = s2.
Proof. unfold eqb. apply bool_decide_eq_true. Qed.

Lemma eqb_neq (s1 s2 : str) : eqb s1 s2 = false <-> s1 <> s2.
Proof. unfold eqb. apply bool_decide_eq_false. Qed.

Lemma send_guard_true_iff (text : str) :
  send_guard text = true <-> strip text <> [].
Proof.
  unfold send_guard, py. simpl utf8_decode.
  destruct (eqb (strip text) []) eqn:E.
  - apply eqb_eq in E. rewrite andb_false_r. split; [discriminate|tauto].
  - apply eqb_neq in E. rewrite andb_true_r.
    destruct text; simpl; [|tauto].
    exfalso. apply E. reflexivity.
Qed.

Lemma send_guard_false_iff (text : str) :
  send_guard text = false <-> forallb isspace text = true.
Proof.
  rewrite <- strip_nil_iff.
  destruct (send_guard text) eqn:E.
  - apply send_guard_true_iff in E. split; [discriminate|tauto].
  - split; [|reflexivity]. intros _.
    destruct (decide (strip text = [])) as [H|H]; [exact H|].
    apply send_guard_true_iff in H. congruence.
Qed.

Lemma contains_middle (a sub b : str) : contains sub (a ++ sub ++ b).
Proof. exists a, b. reflexivity. Qed.

End StrFacts.

(** ** What one run does to the log *)

Section Runs.

Variable w : widgets.
Variable clk : clock.

Lemma messages_append_some (m : message) (log : list message) :
  messages_append m {| messages := Some log |}
  = (Ok tt, {| messages := Some (log ++ [m]) |}).
Proof. reflexivity. Qed.

Lemma quick_query_handler_some (query : str) (log : list message) :
  quick_query_handler clk query {| messages := Some log |}
  = (Raise RerunException,
     {| messages :=
          Some (log ++ [user_message query clk;
                        assistant_message (ai_resp query) clk]) |}).
Proof.
  unfold quick_query_handler, bind, st_rerun, raise.
  rewrite !messages_append_some, <- app_assoc. reflexivity.
Qed.

Lemma quick_query_loop_some (items : list (nat * str))
    (log : list message) :
  quick_query_loop w clk items {| messages := Some log |}
  = match first_clicked w items with
    | Some (_, query) =>
        (Raise RerunException,
         {| messages :=
              Some (log ++ [user_message query clk;
                            assistant_message (ai_resp query) clk]) |})
    | None => (Ok tt, {| messages := Some log |})
    end.
Proof.
  induction items as [|[i query] rest IH]; [reflexivity|].
  cbn [quick_query_loop first_clicked]. unfold bind at 1.
  destruct (button w (quick_key i)).
  - rewrite quick_query_handler_some. reflexivity.
  - unfold ret at 1. exact IH.
Qed.

Lemma send_button_handler_some (log : list message) :
  send_button_handler w clk {| messages := Some log |}
  = if send_guard (user_input w)
    then (Raise RerunException,
          {| messages :=
               Some (log ++ [user_message (user_input w) clk;
                             assistant_message
                               (ai_response (user_input w)) clk]) |})
    else (Ok tt, {| messages := Some log |}).
Proof.
  unfold send_button_handler.
  destruct (send_guard (user_input w)); [|reflexivity].
  unfold bind, st_rerun, raise.
  rewrite !messages_append_some, <- app_assoc. reflexivity.
Qed.

Lemma initialize_spec (s : session_state) :
  initialize s = (Ok tt, {| messages := Some (log_at_start s) |}).
Proof.
  unfold initialize, log_at_start.
  destruct s as [[log|]]; reflexivity.
Qed.

(** One run: it ends in [st.rerun()] exactly when it is accepted, and
    it leaves the log it found extended by [appended]. *)
Lemma script_run_spec (s : session_state) :
  script_run w clk s
  = (if accepted w then Raise RerunException else Ok tt,
     {| messages := Some (log_at_start s ++ appended w clk) |}).
Proof.
  unfold script_run, bind at 1. rewrite initialize_spec.
  unfold bind, accepted, appended.
  rewrite quick_query_loop_some.
  destruct (first_clicked w (enumerate suggested_queries)) as [[i q]|];
    [reflexivity|].
  destruct (button w (py "send_button")); cbn [andb].
  - rewrite send_button_handler_some.
    destruct (send_guard (user_input w)); [reflexivity|].
    rewrite app_nil_r. reflexivity.
  - unfold ret. rewrite app_nil_r. reflexivity.
Qed.

Lemma first_clicked_no_click (items : list (nat * str)) :
  first_clicked (no_click w) items = None.
Proof. induction items as [|[i q] rest IH]; [reflexivity|exact IH]. Qed.

Lemma appended_no_click : appended (no_click w) clk = [].
Proof. unfold appended. rewrite first_clicked_no_click. reflexivity. Qed.

Lemma accepted_no_click : accepted (no_click w) = false.
Proof. unfold accepted. rewrite first_clicked_no_click. reflexivity. Qed.

Lemma length_appended :
  length (appended w clk) = if accepted w then 2%nat else 0%nat.
Proof.
  unfold appended, accepted.
  destruct (first_clicked w (enumerate suggested_queries)) as [[i q]|];
    [reflexivity|].
  destruct (button w (py "send_button") && send_guard (user_input w));
    reflexivity.
Qed.

End Runs.

(** One interaction returns normally and extends the log by [appended]. *)
Lemma interaction_spec (w : widgets) (clk : clock) (s : session_state) :
  interaction w clk s
  = (Ok tt, {| messages := Some (log_at_start s ++ appended w clk) |}).
Proof.
  unfold interaction. rewrite script_run_spec.
  destruct (accepted w); [|reflexivity].
  rewrite script_run_spec, accepted_no_click, appended_no_click, app_nil_r.
  reflexivity.
Qed.

Lemma log_of_interaction (w : widgets) (clk : clock) (s : session_state) :
  log_of (exec (interaction w clk) s) = log_at_start s ++ appended w clk.
Proof. unfold exec. rewrite interaction_spec. reflexivity. Qed.

Lemma session_with_log (inputs : list (widgets * clock))
    (log : list message) :
  session inputs (with_log log) = with_log (log ++ appended_all inputs).
Proof.
  revert log. induction inputs as [|[w clk] rest IH]; intro log.
  - simpl. rewrite app_nil_r. reflexivity.
  - simpl. unfold exec. rewrite interaction_spec. simpl snd.
    change {| messages := Some ?l |} with (with_log l).
    rewrite IH. unfold appended_all. simpl. rewrite app_assoc. reflexivity.
Qed.

Lemma length_appended_all (inputs : list (widgets * clock)) :
  length (appended_all inputs) = (2 * count_accepted inputs)%nat.
Proof.
  unfold appended_all, count_accepted.
  induction inputs as [|[w clk] rest IH]; [reflexivity|].
  simpl. rewrite length_app, length_appended, IH.
  destruct (accepted w); simpl; lia.
Qed.

Lemma appended_all_app (pre post : list (widgets * clock)) :
  appended_all (pre ++ post) = appended_all pre ++ appended_all post.
Proof. unfold appended_all. rewrite map_app, concat_app. reflexivity. Qed.

Lemma paired_app (l1 l2 : list message) :
  paired l1 -> paired l2 -> paired (l1 ++ l2).
Proof.
  induction 1 as [|u a rest Hu Ha _ IH]; intro H2; [exact H2|].
  simpl. constructor; auto.
Qed.

Lemma paired_appended (w : widgets) (clk : clock) :
  paired (appended w clk).
Proof.
  unfold appended.
  destruct (first_clicked w (enumerate suggested_queries)) as [[i q]|].
  - repeat constructor.
  - destruct (button w (py "send_button") && send_guard (user_input w));
      repeat constructor.
Qed.

Lemma paired_appended_all (inputs : list (widgets * clock)) :
  paired (appended_all inputs).
Proof.
  induction inputs as [|[w clk] rest IH]; [constructor|].
  change (appended_all ((w, clk) :: rest))
    with (appended w clk ++ appended_all rest).
  apply paired_app; [apply paired_appended|exact IH].
Qed.

(** In a paired list the roles alternate, starting with a user message. *)
Lemma paired_lookup (l : list message) :
  paired l ->
  forall (j : nat) (m : message), l !! j = Some m ->
    role m = if Nat.even j then py "user" else py "assistant".
Proof.
  induction 1 as [|u a rest Hu Ha _ IH]; intros j m Hj.
  - destruct j; discriminate Hj.
  - destruct j as [|[|j]]; simpl in Hj.
    + injection Hj as <-. exact Hu.
    + injection Hj as <-. exact Ha.
    + change (Nat.even (S (S j))) with (Nat.even j). eauto.
Qed.

Lemma initialize_new_session :
  exec initialize new_session = with_log [greeting].
Proof. reflexivity. Qed.

Lemma user_is_not_assistant : py "user" <> py "assistant".
Proof. vm_compute. discriminate. Qed.

(** ** The properties of the specification *)

(** C1. Starting from the seeded log, after any sequence of interactions
    of which N are accepted the log has [1 + 2 * N] messages; the log
    after a part of the sequence is a prefix of the log after all of it
    (nothing is edited or removed); past the greeting the roles
    alternate user, assistant; and every user message has an assistant
    message right after it in the log each interaction leaves. *)
Theorem log_append_only_paired (inputs : list (widgets * clock)) :
  let s0 := exec initialize new_session in
  let log := log_of (session inputs s0) in
  length log = (1 + 2 * count_accepted inputs)%nat
  /\ (forall pre post : list (widgets * clock),
        inputs = pre ++ post -> log_of (session pre s0) `prefix_of` log)
  /\ (forall (j : nat) (m : message), log !! j = Some m ->
        role m = if Nat.odd j then py "user" else py "assistant")
  /\ (forall (j : nat) (u : message), log !! j = Some u ->
        role u = py "user" ->
        exists a : message,
          log !! (S j) = Some a /\ role a = py "assistant").
Proof.
  intros s0 log. subst s0 log.
  rewrite initialize_new_session, session_with_log.
  change (log_of (with_log ?l)) with l.
  assert (Hlen : length ([greeting] ++ appended_all inputs)
                 = (1 + 2 * count_accepted inputs)%nat).
  { rewrite length_app, length_appended_all. reflexivity. }
  assert (Halt : forall (j : nat) (m : message),
             ([greeting] ++ appended_all inputs) !! j = Some m ->
             role m = if Nat.odd j then py "user" else py "assistant").
  { intros [|j] m Hj; simpl in Hj.
    - injection Hj as <-. reflexivity.
    - rewrite Nat.odd_succ.
      exact (paired_lookup _ (paired_appended_all inputs) j m Hj). }
  split; [exact Hlen|]. split; [|split; [exact Halt|]].
  - intros pre post ->. rewrite session_with_log, appended_all_app.
    change (log_of (with_log ?l)) with l.
    exists (appended_all post). rewrite <- app_assoc. reflexivity.
  - intros j u Hj Hu.
    pose proof (Halt j u Hj) as Hr.
    destruct (Nat.odd j) eqn:Hodd;
      [|rewrite Hu in Hr; exfalso; exact (user_is_not_assistant Hr)].
    assert (Hlt : (j < length ([greeting] ++ appended_all inputs))%nat)
      by (eapply lookup_lt_Some; exact Hj).
    assert (Hlt' : (S j < length ([greeting] ++ appended_all inputs))%nat).
    { rewrite Hlen in *. apply Nat.odd_spec in Hodd.
      destruct Hodd as [k ->]. lia. }
    destruct (lookup_lt_is_Some_2 _ _ Hlt') as [a Ha].
    exists a. split; [exact Ha|].
    rewrite (Halt _ _ Ha), Nat.odd_succ, <- Nat.negb_odd, Hodd. reflexivity.
Qed.

Lemma first_clicked_In (w : widgets) (items : list (nat * str))
    (i : nat) (q : str) :
  first_clicked w items = Some (i, q) -> In (i, q) items.
Proof.
  induction items as [|[j p] rest IH]; simpl; [discriminate|].
  destruct (button w (quick_key j)).
  - intros [= -> ->]. left. reflexivity.
  - intro H. right. exact (IH H).
Qed.

(** Every quick query is a key of [responses]. *)
Lemma quick_queries_are_keys (w : widgets) (i : nat) (q : str) :
  first_clicked w (enumerate suggested_queries) = Some (i, q) ->
  dict_mem responses q = true.
Proof.
  intro H. apply first_clicked_In in H. simpl in H.
  destruct H as [H|[H|[H|[H|[]]]]]; injection H as _ <-; vm_compute;
    reflexivity.
Qed.

Lemma ai_response_nonempty (q : str) : ai_response q <> [].
Proof. unfold ai_response. vm_compute. discriminate. Qed.

Lemma ai_response_contains (q : str) : contains q (ai_response q).
Proof. unfold ai_response. apply contains_middle. Qed.

Lemma ai_resp_nonempty (q : str) : ai_resp q <> [].
Proof.
  unfold ai_resp, dict_get, responses. cbn [dict_lookup].
  repeat match goal with
         | |- context [eqb ?k q] => destruct (eqb k q)
         end; vm_compute; discriminate.
Qed.

(** C2. A query that is not a key of [responses] can only come from the
    text box, and the answer appended for it is non-empty and contains
    the query as typed: the quick-query loop only looks up keys, so the
    default of its [responses.get] is never the answer. Neither way of
    resolving a query returns empty text, whatever the text, and an
    interaction never ends in an exception. *)
Theorem fallback_echoes_query :
  (forall q : str, ai_response q <> [] /\ contains q (ai_response q))
  /\ (forall q : str, ai_resp q <> [])
  /\ (forall (w : widgets) (i : nat) (q : str),
        first_clicked w (enumerate suggested_queries) = Some (i, q) ->
        dict_mem responses q = true)
  /\ (forall (w : widgets) (clk : clock) (s : session_state),
        fst (interaction w clk s) = Ok tt)
  /\ (forall (w : widgets) (clk : clock) (s : session_state)
        (u a : message),
        log_of (exec (interaction w clk) s) = log_at_start s ++ [u; a] ->
        dict_mem responses (content u) = false ->
        content a <> [] /\ contains (content u) (content a)).
Proof.
  split; [|split; [|split; [|split]]].
  - intro q. split; [apply ai_response_nonempty|apply ai_response_contains].
  - apply ai_resp_nonempty.
  - apply quick_queries_are_keys.
  - intros w clk s. rewrite interaction_spec. reflexivity.
  - intros w clk s u a Hlog Hkey.
    rewrite log_of_interaction in Hlog. apply app_inv_head in Hlog.
    unfold appended in Hlog.
    destruct (first_clicked w (enumerate suggested_queries))
      as [[i q]|] eqn:Hq.
    + injection Hlog as <- <-. simpl in Hkey.
      rewrite (quick_queries_are_keys w i q Hq) in Hkey. discriminate.
    + destruct (button w (py "send_button") && send_guard (user_input w));
        [|discriminate].
      injection Hlog as <- <-. simpl.
      split; [apply ai_response_nonempty|apply ai_response_contains].
Qed.

Lemma fallback_echoes_query_witness :
  let w := click_send (py "Oxygen at 50m") in
  let clk := {| now := py "09:41"; now2 := py "09:41" |} in
  let u := user_message (py "Oxygen at 50m") clk in
  let a := assistant_message
             (py "I'm processing your request for 'Oxygen at 50m'. Here are the results visualized on the map and graphs.") clk in
  content a <> [] /\ contains (content u) (content a).
Proof.
  intros w clk u a.
  apply (proj2 (proj2 (proj2 (proj2 fallback_echoes_query)))
           w clk new_session u a).
  - vm_compute. reflexivity.
  - vm_compute. reflexivity.
Defined.

(** ** The two ways to ask *)

Lemma appended_click_send (text : str) (clk : clock) :
  appended (click_send text) clk
  = if send_guard text
    then [user_message text clk; assistant_message (ai_response text) clk]
    else [].
Proof.
  unfold appended.
  replace (first_clicked (click_send text) (enumerate suggested_queries))
    with (@None (nat * str)) by (vm_compute; reflexivity).
  replace (button (click_send text) (py "send_button")) with true
    by (vm_compute; reflexivity).
  reflexivity.
Qed.

Lemma appended_click_quick (i : nat) (q text : str) (clk : clock) :
  suggested_queries !! i = Some q ->
  appended (click_quick i text) clk
  = [user_message q clk; assistant_message (ai_resp q) clk].
Proof.
  intro H. unfold appended.
  replace (first_clicked (click_quick i text) (enumerate suggested_queries))
    with (Some (i, q)); [reflexivity|].
  destruct i as [|[|[|[|i]]]]; simpl in H; try discriminate H;
    injection H as <-; vm_compute; reflexivity.
Qed.

Lemma quick_query_is_key (i : nat) (q : str) :
  suggested_queries !! i = Some q ->
  dict_lookup responses q = Some (ai_resp q).
Proof.
  intro H.
  destruct i as [|[|[|[|i]]]]; simpl in H; try discriminate H;
    injection H as <-; vm_compute; reflexivity.
Qed.

Lemma quick_query_passes_guard (i : nat) (q : str) :
  suggested_queries !! i = Some q -> send_guard q = true.
Proof.
  intro H.
  destruct i as [|[|[|[|i]]]]; simpl in H; try discriminate H;
    injection H as <-; vm_compute; reflexivity.
Qed.

(** C3, as stated, fails: the quick-query button for "Show floats near
    Hawaii" and the same text sent from the text box leave different
    logs. *)
Lemma quick_query_differs_from_send :
  let clk := {| now := py "09:41"; now2 := py "09:42" |} in
  let s0 := exec initialize new_session in
  suggested_queries !! 0%nat = Some (py "Show floats near Hawaii")
  /\ log_of (exec (interaction (click_quick 0 (py "")) clk) s0)
     <> log_of (exec (interaction
                        (click_send (py "Show floats near Hawaii")) clk) s0).
Proof.
  split; [reflexivity|].
  vm_compute. intro H. discriminate H.
Qed.

(** C3, amended. For each of the four quick queries, the button and the
    same text sent from the text box both append a user message and an
    assistant message to the log; the user messages are equal; the
    assistant message of the button holds the canned response of
    [responses], that of the text box the generic answer quoting the
    query. *)
Theorem quick_query_and_send_same_user_message (i : nat) (q text : str)
    (clk : clock) (s : session_state) :
  suggested_queries !! i = Some q ->
  exists canned : str,
    dict_lookup responses q = Some canned
    /\ log_of (exec (interaction (click_quick i text) clk) s)
       = log_at_start s
           ++ [ {| role := py "user"; content := q; timestamp := now clk |};
                {| role := py "assistant"; content := canned;
                   timestamp := now2 clk |} ]
    /\ log_of (exec (interaction (click_send q) clk) s)
       = log_at_start s
           ++ [ {| role := py "user"; content := q; timestamp := now clk |};
                {| role := py "assistant";
                   content := py "I'm processing your request for '" ++ q
                     ++ py "'. Here are the results visualized on the map and graphs.";
                   timestamp := now2 clk |} ].
Proof.
  intro H. exists (ai_resp q).
  split; [exact (quick_query_is_key i q H)|].
  rewrite !log_of_interaction, (appended_click_quick i q text clk H),
    appended_click_send, (quick_query_passes_guard i q H).
  split; reflexivity.
Qed.

Lemma quick_query_and_send_same_user_message_witness :
  exists canned : str,
    dict_lookup responses (py "Compare BGC parameters") = Some canned
    /\ log_of (exec (interaction (click_quick 3 (py "draft"))
                       {| now := py "09:41"; now2 := py "09:42" |})
                 new_session)
       = log_at_start new_session
           ++ [ {| role := py "user"; content := py "Compare BGC parameters";
                   timestamp := py "09:41" |};
                {| role := py "assistant"; content := canned;
                   timestamp := py "09:42" |} ]
    /\ log_of (exec (interaction (click_send (py "Compare BGC parameters"))
                       {| now := py "09:41"; now2 := py "09:42" |})
                 new_session)
       = log_at_start new_session
           ++ [ {| role := py "user"; content := py "Compare BGC parameters";
                   timestamp := py "09:41" |};
                {| role := py "assistant";
                   content := py "I'm processing your request for '"
                     ++ py "Compare BGC parameters"
                     ++ py "'. Here are the results visualized on the map and graphs.";
                   timestamp := py "09:42" |} ].
Proof.
  apply (quick_query_and_send_same_user_message 3
           (py "Compare BGC parameters") (py "draft")
           {| now := py "09:41"; now2 := py "09:42" |} new_session).
  reflexivity.
Defined.

(** C4, as stated, fails for the text box: after the seeding and one
    "Temperature at 200m depth" sent from the text box, the third
    message is the generic answer, not the canned response. *)
Lemma send_temperature_gets_generic_answer :
  let clk := {| now := py "09:41"; now2 := py "09:42" |} in
  let log :=
    log_of (exec (interaction
                    (click_send (py "Temperature at 200m depth")) clk)
              (exec initialize new_session)) in
  content <$> log !! 2%nat
  = Some (py "I'm processing your request for 'Temperature at 200m depth'. Here are the results visualized on the map and graphs.")
  /\ content <$> log !! 2%nat
     <> Some (py "The average temperature at 200m depth is 15.3°C across all ARGO floats. Here's the spatial distribution.").
Proof.
  split; [vm_compute; reflexivity|].
  vm_compute. intro H. discriminate H.
Qed.

(** C4, amended. After the seeding and one click on the quick-query
    button "Temperature at 200m depth" the log has three messages: the
    greeting, the user message with that text, and the assistant message
    with the canned response. Sent from the text box, the same text
    gives the same first two messages and the generic answer as third. *)
Theorem temperature_scenario (clk : clock) (text : str) :
  let s0 := exec initialize new_session in
  log_of (exec (interaction (click_quick 2 text) clk) s0)
  = [ greeting;
      {| role := py "user"; content := py "Temperature at 200m depth";
         timestamp := now clk |};
      {| role := py "assistant";
         content := py "The average temperature at 200m depth is 15.3°C across all ARGO floats. Here's the spatial distribution.";
         timestamp := now2 clk |} ]
  /\ log_of (exec (interaction
                     (click_send (py "Temperature at 200m depth")) clk) s0)
     = [ greeting;
         {| role := py "user"; content := py "Temperature at 200m depth";
            timestamp := now clk |};
         {| role := py "assistant";
            content := py "I'm processing your request for 'Temperature at 200m depth'. Here are the results visualized on the map and graphs.";
            timestamp := now2 clk |} ].
Proof.
  intro s0. subst s0. rewrite !log_of_interaction.
  rewrite (appended_click_quick 2 (py "Temperature at 200m depth") text clk)
    by reflexivity.
  rewrite appended_click_send.
  split; vm_compute; reflexivity.
Qed.

(** C5. The response to a quick query is a function of the query text
    alone: each of the four has its fixed response, and the assistant
    message a quick-query button appends holds it whatever the log, the
    text box and the clock are. *)
Theorem canned_responses_fixed :
  ai_resp (py "Show floats near Hawaii")
  = py "I found 12 ARGO floats near Hawaii in the last month. Here are their trajectories and data profiles."
  /\ ai_resp (py "Salinity trends last 6 months")
     = py "Salinity has shown a slight decrease of 0.2 PSU in the Pacific Ocean over the last 6 months. Here's the trend analysis."
  /\ ai_resp (py "Temperature at 200m depth")
     = py "The average temperature at 200m depth is 15.3°C across all ARGO floats. Here's the spatial distribution."
  /\ ai_resp (py "Compare BGC parameters")
     = py "I've compared Bio-Geo-Chemical parameters across different ocean basins. The Indian Ocean shows higher chlorophyll concentrations."
  /\ (forall (text : str) (clk : clock) (s : session_state),
        List.map
          (fun i => content <$>
                      last (log_of (exec (interaction (click_quick i text) clk) s)))
          [0; 1; 2; 3]%nat
        = List.map (fun q => Some (ai_resp q)) suggested_queries).
Proof.
  repeat (split; [vm_compute; reflexivity|]).
  intros text clk s. cbn [List.map suggested_queries].
  rewrite !log_of_interaction.
  rewrite (appended_click_quick 0 _ text clk eq_refl),
    (appended_click_quick 1 _ text clk eq_refl),
    (appended_click_quick 2 _ text clk eq_refl),
    (appended_click_quick 3 _ text clk eq_refl).
  rewrite !last_app. reflexivity.
Qed.

(** C6. The log of a freshly initialized session is the one greeting of
    the assistant, stamped "10:00 AM"; on a session that has a log,
    initializing changes nothing, and so does initializing twice. *)
Theorem initialize_seeds_once :
  log_of (exec initialize new_session)
  = [ {| role := py "assistant";
         content := py "Hello! I'm your ocean data assistant. How can I help you explore ARGO data today?";
         timestamp := py "10:00 AM" |} ]
  /\ (forall log : list message,
        initialize (with_log log) = (Ok tt, with_log log))
  /\ (forall s : session_state,
        initialize (exec initialize s) = (Ok tt, exec initialize s)).
Proof.
  split; [reflexivity|]. split; [reflexivity|].
  intros [[log|]]; reflexivity.
Qed.

(** C7. A click on Send with an empty text box, or with white space
    only in it, returns normally and leaves the session state, and so
    the log, as it was. *)
Theorem blank_input_rejected (text : str) (clk : clock)
    (log : list message) :
  forallb isspace text = true ->
  interaction (click_send text) clk (with_log log) = (Ok tt, with_log log).
Proof.
  intro H. rewrite interaction_spec, appended_click_send.
  apply send_guard_false_iff in H. rewrite H.
  unfold log_at_start, with_log. simpl. rewrite app_nil_r. reflexivity.
Qed.

Lemma blank_input_rejected_witness :
  (forallb isspace (py "") = true
   /\ interaction (click_send (py "")) {| now := py "09:41"; now2 := py "09:41" |}
        (with_log [greeting])
      = (Ok tt, with_log [greeting]))
  /\ (forallb isspace (py "   ") = true
      /\ interaction (click_send (py "   "))
           {| now := py "09:41"; now2 := py "09:41" |} (with_log [greeting])
         = (Ok tt, with_log [greeting])).
Proof.
  split; (split; [reflexivity|]).
  - apply (blank_input_rejected (py "")). reflexivity.
  - apply (blank_input_rejected (py "   ")). reflexivity.
Defined.

(** C10. A text whose stripped form is not empty is stored as typed:
    the user message appended holds the text of the box unchanged,
    white space at its ends included. *)
Theorem user_content_not_stripped (text : str) (clk : clock)
    (log : list message) :
  strip text <> [] ->
  log_of (exec (interaction (click_send text) clk) (with_log log))
  = log ++ [ {| role := py "user"; content := text; timestamp := now clk |};
             {| role := py "assistant"; content := ai_response text;
                timestamp := now2 clk |} ].
Proof.
  intro H. rewrite log_of_interaction, appended_click_send.
  apply send_guard_true_iff in H. rewrite H. reflexivity.
Qed.

Lemma user_content_not_stripped_witness :
  strip (py "  salinity  ") <> []
  /\ log_of (exec (interaction (click_send (py "  salinity  "))
                     {| now := py "09:41"; now2 := py "09:42" |})
               (with_log [greeting]))
     = [greeting]
         ++ [ {| role := py "user"; content := py "  salinity  ";
                 timestamp := py "09:41" |};
              {| role := py "assistant";
                 content := ai_response (py "  salinity  ");
                 timestamp := py "09:42" |} ].
Proof.
  assert (H : strip (py "  salinity  ") <> []) by (vm_compute; discriminate).
  split; [exact H|].
  exact (user_content_not_stripped (py "  salinity  ")
           {| now := py "09:41"; now2 := py "09:42" |} [greeting] H).
Defined.

(** ** The export tab *)

Section ExportFacts.

Import ExportTab.

Context {value : Type}.
Variable csv_repr : value -> str.
Variable linesep : str.

Lemma export_branch_unsupported (w : export_widgets)
    (df : DataFrame (value := value)) :
  export_format w <> py "CSV" ->
  export_branch csv_repr linesep w df
  = [Warning (export_format w
                ++ py " export requires additional setup. Please use CSV format for now.")].
Proof.
  intro H. unfold export_branch.
  destruct (eqb (export_format w) (py "CSV")) eqn:E;
    [apply eqb_eq in E; contradiction|].
  destruct (eqb (export_format w) (py "Excel")) eqn:E'; [|reflexivity].
  apply eqb_eq in E'. rewrite E'. vm_compute. reflexivity.
Qed.

(** C8. With any export format other than "CSV" selected, the tab
    draws the warning that the format needs additional setup, and it
    draws no download button, so it serves no file; this holds whether
    or not "Generate Export" was pressed. *)
Theorem unsupported_format_warns (w : export_widgets)
    (src : sample_source (value := value)) :
  export_format w <> py "CSV" ->
  let drawn := export_tab csv_repr linesep w src in
  Warning (export_format w
             ++ py " export requires additional setup. Please use CSV format for now.")
    ∈ drawn
  /\ (forall e : element, e ∈ drawn ->
        is_download e = false /\ served_bytes e = None).
Proof.
  intros H drawn. subst drawn.
  unfold export_tab, export_download, export_options.
  rewrite (export_branch_unsupported w (sample_data src) H).
  split.
  - destruct (generate_export w); simpl;
      repeat first [apply list_elem_of_here | apply list_elem_of_further].
  - intros e He.
    destruct (generate_export w); simpl in He;
      repeat (apply elem_of_cons in He; destruct He as [->|He];
              [split; reflexivity|]);
      apply elem_of_nil in He; contradiction.
Qed.

End ExportFacts.

Lemma unsupported_format_warns_witness :
  let src := {| ExportTab.date_range := fun k : nat => k;
                ExportTab.uniform := fun k : nat => (100 + k)%nat |} in
  let w fmt := {| ExportTab.export_format := py fmt;
                  ExportTab.data_range := py "All Data";
                  ExportTab.include_metadata := true;
                  ExportTab.generate_export := true |} in
  Forall
    (fun fmt =>
       let drawn := ExportTab.export_tab decimal [10%N] (w fmt) src in
       ExportTab.Warning
         (py fmt ++ py " export requires additional setup. Please use CSV format for now.")
         ∈ drawn
       /\ (forall e, e ∈ drawn ->
             ExportTab.is_download e = false
             /\ ExportTab.served_bytes e = None))
    ["NetCDF"; "JSON"; "Excel"].
Proof.
  intros src w.
  repeat (constructor;
          [apply (unsupported_format_warns decimal [10%N] (w _) src);
           vm_compute; discriminate|]).
  constructor.
Defined.

(** ** Splitting, joining and encoding *)

Section SplitJoin.

Import ExportTab.

Variable sep : N.

Lemma split_on_app_sep (field rest : str) :
  no_sep sep field = true ->
  split_on sep (field ++ sep :: rest) = field :: split_on sep rest.
Proof.
  induction field as [|c field IH]; simpl; intro H.
  - rewrite N.eqb_refl. reflexivity.
  - apply andb_prop in H. destruct H as [Hc Hf].
    apply negb_true_iff in Hc. rewrite Hc, (IH Hf). reflexivity.
Qed.

Lemma split_on_no_sep (field : str) :
  no_sep sep field = true -> split_on sep field = [field].
Proof.
  induction field as [|c field IH]; simpl; intro H; [reflexivity|].
  apply andb_prop in H. destruct H as [Hc Hf].
  apply negb_true_iff in Hc. rewrite Hc, (IH Hf). reflexivity.
Qed.

Lemma split_on_join (fields : list str) :
  fields <> [] ->
  forallb (no_sep sep) fields = true ->
  split_on sep (join [sep] fields) = fields.
Proof.
  induction fields as [|f rest IH]; [congruence|].
  intros _ H. simpl in H. apply andb_prop in H. destruct H as [Hf Hrest].
  destruct rest as [|g rest].
  - simpl. apply split_on_no_sep. exact Hf.
  - change (join [sep] (f :: g :: rest))
      with (f ++ sep :: join [sep] (g :: rest)).
    rewrite (split_on_app_sep _ _ Hf), IH; [reflexivity|discriminate|].
    exact Hrest.
Qed.

End SplitJoin.

Section Ascii.

Import ExportTab.

Variable P : N -> bool.

Lemma forallb_join (sepa : str) (parts : list str) :
  forallb P sepa = true ->
  forallb (forallb P) parts = true ->
  forallb P (join sepa parts) = true.
Proof.
  intro Hs. induction parts as [|p rest IH]; [reflexivity|].
  intro H. simpl in H. apply andb_prop in H. destruct H as [Hp Hrest].
  destruct rest as [|q rest]; [exact Hp|].
  change (join sepa (p :: q :: rest))
    with (p ++ sepa ++ join sepa (q :: rest)).
  rewrite !forallb_app, Hp, Hs, (IH Hrest). reflexivity.
Qed.

Lemma forallb_concat (parts : list str) :
  forallb (forallb P) parts = true ->
  forallb P (List.concat parts) = true.
Proof.
  induction parts as [|p rest IH]; [reflexivity|].
  intro H. simpl in H. apply andb_prop in H. destruct H as [Hp Hrest].
  simpl. rewrite forallb_app, Hp, (IH Hrest). reflexivity.
Qed.

Lemma forallb_weaken (Q : N -> bool) (s : str) :
  (forall c, P c = true -> Q c = true) ->
  forallb P s = true -> forallb Q s = true.
Proof.
  intro HPQ. induction s as [|c s IH]; [reflexivity|].
  simpl. intro H. apply andb_prop in H. destruct H as [Hc Hs].
  rewrite (HPQ c Hc), (IH Hs). reflexivity.
Qed.

End Ascii.

Lemma utf8_encode_ascii (s : str) :
  forallb ExportTab.ascii_char s = true ->
  ExportTab.utf8_encode s = Some s.
Proof.
  intro H. unfold ExportTab.utf8_encode.
  rewrite (forallb_weaken ExportTab.ascii_char ExportTab.encodable s); auto.
  - f_equal. induction s as [|c s IH]; [reflexivity|].
    simpl in H. apply andb_prop in H. destruct H as [Hc Hs].
    simpl. unfold ExportTab.utf8_encode_char at 1.
    unfold ExportTab.ascii_char in Hc. rewrite Hc, (IH Hs). reflexivity.
  - intros c Hc. unfold ExportTab.ascii_char in Hc.
    unfold ExportTab.encodable. apply N.ltb_lt in Hc.
    apply orb_true_iff. left. apply N.ltb_lt. lia.
Qed.

Lemma utf8_decode_ascii (s : str) :
  forallb ExportTab.ascii_char s = true -> utf8_decode s = s.
Proof.
  induction s as [|c s IH]; [reflexivity|].
  intro H. simpl in H. apply andb_prop in H. destruct H as [Hc Hs].
  unfold ExportTab.ascii_char in Hc.
  cbn [utf8_decode]. rewrite Hc, (IH Hs). reflexivity.
Qed.

Section CsvFacts.

Import ExportTab.

Context {value : Type}.
Variable csv_repr : value -> str.
Variable linesep : str.
Variable src : sample_source (value := value).

Lemma nrows_sample_data : nrows (sample_data src) = 10%nat.
Proof. reflexivity. Qed.

Lemma row_sample_data (k : nat) :
  (k < 10)%nat -> row (sample_data src) k = sample_record src k.
Proof.
  intro H. do 10 (destruct k as [|k]; [reflexivity|]). lia.
Qed.

Lemma csv_header_sample_data :
  csv_header false (sample_data src)
  = py "date,latitude,longitude,temperature,salinity,depth".
Proof. vm_compute. reflexivity. Qed.

Lemma field_char_ascii (c : N) :
  field_char c = true -> ascii_char c = true.
Proof.
  unfold field_char, ascii_char. intro H.
  repeat (apply andb_prop in H; destruct H as [H _]). exact H.
Qed.

Lemma field_char_line (c : N) :
  field_char c = true -> line_char c = true.
Proof.
  unfold field_char, line_char. intro H.
  apply andb_prop in H. destruct H as [H H13].
  apply andb_prop in H. destruct H as [H H10].
  rewrite H10, H13. reflexivity.
Qed.

Lemma field_char_no_comma (c : N) :
  field_char c = true -> negb (c =? 44)%N = true.
Proof.
  unfold field_char. intro H.
  do 3 (apply andb_prop in H; destruct H as [H _]).
  apply andb_prop in H. destruct H as [_ H]. exact H.
Qed.

Hypothesis repr_plain : forall v : value,
  forallb field_char (csv_repr v) = true.

Lemma fields_all (Q : N -> bool) (cells : list value) :
  (forall c, field_char c = true -> Q c = true) ->
  forallb (forallb Q) (List.map csv_repr cells) = true.
Proof.
  intro HQ. induction cells as [|v cells IH]; [reflexivity|].
  simpl. rewrite IH, (forallb_weaken field_char Q _ HQ (repr_plain v)).
  reflexivity.
Qed.

Lemma csv_row_all (Q : N -> bool) (k : nat) :
  Q 44%N = true ->
  (forall c, field_char c = true -> Q c = true) ->
  forallb Q (csv_row csv_repr false (sample_data src) k) = true.
Proof.
  intros H44 HQ. unfold csv_row. simpl app.
  apply forallb_join.
  - vm_compute. rewrite H44. reflexivity.
  - apply fields_all. exact HQ.
Qed.

Lemma csv_row_split (k : nat) :
  (k < 10)%nat ->
  split_on 44 (csv_row csv_repr false (sample_data src) k)
  = List.map csv_repr (sample_record src k).
Proof.
  intro H. unfold csv_row. simpl app. rewrite (row_sample_data k H).
  change (py ",") with [44%N].
  apply split_on_join; [discriminate|].
  apply fields_all. apply field_char_no_comma.
Qed.

End CsvFacts.

(** C9. With "CSV" selected the tab offers one download, of the text
    [to_csv] returns. That text is the header line
    "date,latitude,longitude,temperature,salinity,depth", then ten
    lines, each followed by the line terminator: line [k] has no line
    break in it and splits at its commas into the six cells of record
    [k], the date first, so there is no index column. The header splits
    into the six column names. Served as a file the text is UTF-8, and
    decodes back to itself. This holds when the cells print as ASCII
    text without comma, quote or line break, as timestamps and floats
    do, and the line terminator is ASCII. *)
Theorem csv_download_layout {value : Type} (csv_repr : value -> str)
    (linesep : str) (w : ExportTab.export_widgets)
    (src : ExportTab.sample_source (value := value)) :
  (forall v : value, forallb ExportTab.field_char (csv_repr v) = true) ->
  forallb ExportTab.ascii_char linesep = true ->
  ExportTab.export_format w = py "CSV" ->
  exists (csv : str) (lines : list str),
    ExportTab.DownloadButton (py "Download CSV") csv (py "argo_data.csv")
      (py "text/csv")
      ∈ ExportTab.export_tab csv_repr linesep w src
    /\ (forall e, e ∈ ExportTab.export_tab csv_repr linesep w src ->
          ExportTab.is_download e = true ->
          e = ExportTab.DownloadButton (py "Download CSV") csv
                (py "argo_data.csv") (py "text/csv"))
    /\ csv = py "date,latitude,longitude,temperature,salinity,depth"
               ++ linesep
               ++ List.concat (List.map (fun line => line ++ linesep) lines)
    /\ ExportTab.split_on 44
         (py "date,latitude,longitude,temperature,salinity,depth")
       = [ py "date"; py "latitude"; py "longitude"; py "temperature";
           py "salinity"; py "depth" ]
    /\ length lines = 10%nat
    /\ (forall k : nat, (k < 10)%nat ->
          exists line : str,
            lines !! k = Some line
            /\ forallb ExportTab.line_char line = true
            /\ ExportTab.split_on 44 line
               = List.map csv_repr (ExportTab.sample_record src k))
    /\ (exists bytes : list N,
          ExportTab.utf8_encode csv = Some bytes
          /\ utf8_decode bytes = csv).
Proof.
  intros Hrepr Hsep Hfmt.
  set (df := ExportTab.sample_data src).
  exists (ExportTab.to_csv csv_repr linesep false df),
    (List.map (ExportTab.csv_row csv_repr false df) (seq 0 10)).
  assert (Hbranch : ExportTab.export_branch csv_repr linesep w df
            = [ExportTab.DownloadButton (py "Download CSV")
                 (ExportTab.to_csv csv_repr linesep false df)
                 (py "argo_data.csv") (py "text/csv")]).
  { unfold ExportTab.export_branch. rewrite Hfmt.
    replace (eqb (py "CSV") (py "CSV")) with true
      by (vm_compute; reflexivity).
    reflexivity. }
  assert (Hcsv : ExportTab.to_csv csv_repr linesep false df
            = py "date,latitude,longitude,temperature,salinity,depth"
                ++ linesep
                ++ List.concat
                     (List.map (fun line => line ++ linesep)
                        (List.map (ExportTab.csv_row csv_repr false df)
                           (seq 0 10)))).
  { unfold ExportTab.to_csv. subst df.
    rewrite nrows_sample_data, csv_header_sample_data, List.map_map.
    reflexivity. }
  split; [|split; [|split; [exact Hcsv|split; [|split; [|split]]]]].
  - unfold ExportTab.export_tab, ExportTab.export_download,
      ExportTab.export_options. fold df. rewrite Hbranch.
    destruct (ExportTab.generate_export w); simpl;
      repeat first [apply list_elem_of_here | apply list_elem_of_further].
  - intros e He Hd.
    unfold ExportTab.export_tab, ExportTab.export_download,
      ExportTab.export_options in He. fold df in He. rewrite Hbranch in He.
    destruct (ExportTab.generate_export w); simpl in He;
      repeat (apply elem_of_cons in He; destruct He as [->|He];
              [first [reflexivity | discriminate Hd]|]);
      apply elem_of_nil in He; contradiction.
  - vm_compute. reflexivity.
  - rewrite length_map, length_seq. reflexivity.
  - intros k Hk.
    exists (ExportTab.csv_row csv_repr false df k).
    split; [|split].
    + rewrite list_lookup_fmap, lookup_seq_lt by exact Hk. reflexivity.
    + subst df. apply csv_row_all; [exact Hrepr|reflexivity|].
      apply field_char_line.
    + subst df. apply csv_row_split; assumption.
  - exists (ExportTab.to_csv csv_repr linesep false df).
    assert (Hascii : forallb ExportTab.ascii_char
                       (ExportTab.to_csv csv_repr linesep false df) = true).
    { rewrite Hcsv, !forallb_app, Hsep.
      replace (forallb ExportTab.ascii_char
                 (py "date,latitude,longitude,temperature,salinity,depth"))
        with true by (vm_compute; reflexivity).
      cbn [andb]. apply forallb_concat.
      rewrite List.map_map.
      generalize (seq 0 10). intro ks.
      induction ks as [|k ks IH]; [reflexivity|].
      cbn [List.map forallb]. rewrite IH, forallb_app, Hsep.
      subst df. rewrite csv_row_all;
        [reflexivity|exact Hrepr|reflexivity|apply field_char_ascii]. }
    split; [apply utf8_encode_ascii|apply utf8_decode_ascii]; exact Hascii.
Qed.

Lemma csv_download_layout_witness :
  let repr := fun is_date : bool =>
                if is_date then py "2024-05-17 09:41:07.123456"
                else py "17.25" in
  let src := {| ExportTab.date_range := fun _ : nat => true;
                ExportTab.uniform := fun _ : nat => false |} in
  let w := {| ExportTab.export_format := py "CSV";
              ExportTab.data_range := py "All Data";
              ExportTab.include_metadata := true;
              ExportTab.generate_export := false |} in
  exists (csv : str) (lines : list str),
    ExportTab.DownloadButton (py "Download CSV") csv (py "argo_data.csv")
      (py "text/csv")
      ∈ ExportTab.export_tab repr [10%N] w src
    /\ (forall e, e ∈ ExportTab.export_tab repr [10%N] w src ->
          ExportTab.is_download e = true ->
          e = ExportTab.DownloadButton (py "Download CSV") csv
                (py "argo_data.csv") (py "text/csv"))
    /\ csv = py "date,latitude,longitude,temperature,salinity,depth"
               ++ [10%N]
               ++ List.concat (List.map (fun line => line ++ [10%N]) lines)
    /\ ExportTab.split_on 44
         (py "date,latitude,longitude,temperature,salinity,depth")
       = [ py "date"; py "latitude"; py "longitude"; py "temperature";
           py "salinity"; py "depth" ]
    /\ length lines = 10%nat
    /\ (forall k : nat, (k < 10)%nat ->
          exists line : str,
            lines !! k = Some line
            /\ forallb ExportTab.line_char line = true
            /\ ExportTab.split_on 44 line
               = List.map repr (ExportTab.sample_record src k))
    /\ (exists bytes : list N,
          ExportTab.utf8_encode csv = Some bytes
          /\ utf8_decode bytes = csv).
Proof.
  intros repr src w.
  apply (csv_download_layout repr [10%N] w src).
  - intros [|]; reflexivity.
  - reflexivity.
  - reflexivity.
Defined.

(** ** The chat panel: what is drawn for a log *)

Section ChatFacts.

Import ChatView.

Lemma fold_parts (log : list message) (parts : list str) :
  fold_left (fun parts msg => parts ++ [chat_message msg]) log parts
  = parts ++ List.map chat_message log.
Proof.
  revert parts. induction log as [|m log IH]; intro parts; simpl.
  - rewrite app_nil_r. reflexivity.
  - rewrite IH, <- app_assoc. reflexivity.
Qed.

Lemma chat_html_parts_eq (log : list message) :
  chat_html_parts log
  = chat_open :: List.map chat_message log ++ [chat_close].
Proof. unfold chat_html_parts. rewrite fold_parts. reflexivity. Qed.

(** X1. The parts of the chat markup are the opening tag, one block per
    message of the log in the order of the log, and the closing tag;
    a message added to the log adds its block before the closing tag
    and leaves the blocks before it as they were. *)
Theorem chat_parts_follow_log (log : list message) :
  length (chat_html_parts log) = (length log + 2)%nat
  /\ chat_html_parts log !! 0%nat = Some chat_open
  /\ chat_html_parts log !! (S (length log)) = Some chat_close
  /\ (forall (i : nat) (m : message), log !! i = Some m ->
        chat_html_parts log !! (S i) = Some (chat_message m))
  /\ (forall m : message,
        exists blocks : list str,
          chat_html_parts log = blocks ++ [chat_close]
          /\ chat_html_parts (log ++ [m])
             = blocks ++ [chat_message m; chat_close]).
Proof.
  rewrite chat_html_parts_eq.
  split; [|split; [|split; [|split]]].
  - simpl. rewrite length_app, length_map. simpl. lia.
  - reflexivity.
  - simpl. rewrite lookup_app_r by (rewrite length_map; lia).
    rewrite length_map, Nat.sub_diag. reflexivity.
  - intros i m Hi. simpl.
    rewrite lookup_app_l
      by (rewrite length_map; eapply lookup_lt_Some; exact Hi).
    rewrite list_lookup_fmap, Hi. reflexivity.
  - intro m. exists (chat_open :: List.map chat_message log).
    split; [reflexivity|].
    rewrite chat_html_parts_eq, map_app. simpl.
    rewrite <- app_assoc. reflexivity.
Qed.

Lemma replace_char_no_old (old : N) (new s : str) :
  ExportTab.no_sep old new = true ->
  ExportTab.no_sep old (replace_char old new s) = true.
Proof.
  intro Hnew. unfold ExportTab.no_sep in *.
  induction s as [|c s IH]; [reflexivity|].
  simpl. destruct (c =? old)%N eqn:E.
  - rewrite forallb_app, Hnew, IH. reflexivity.
  - simpl. rewrite E, IH. reflexivity.
Qed.

Lemma replace_char_id (old : N) (new s : str) :
  ExportTab.no_sep old s = true -> replace_char old new s = s.
Proof.
  unfold ExportTab.no_sep. induction s as [|c s IH]; [reflexivity|].
  simpl. intro H. apply andb_prop in H. destruct H as [Hc Hs].
  apply negb_true_iff in Hc. rewrite Hc, (IH Hs). reflexivity.
Qed.

Lemma replace_char_length (old : N) (new s : str) :
  (length (replace_char old new s) + count_occ N.eq_dec s old
   = length s + length new * count_occ N.eq_dec s old)%nat.
Proof.
  induction s as [|c s IH]; [simpl; lia|].
  simpl. destruct (c =? old)%N eqn:E.
  - apply N.eqb_eq in E. subst c.
    destruct (N.eq_dec old old) as [_|Hne]; [|contradiction].
    rewrite length_app. lia.
  - apply N.eqb_neq in E.
    destruct (N.eq_dec c old) as [He|_]; [contradiction|].
    simpl. lia.
Qed.

Lemma replace_char_app (old : N) (new s1 s2 : str) :
  replace_char old new (s1 ++ s2)
  = replace_char old new s1 ++ replace_char old new s2.
Proof.
  induction s1 as [|c s1 IH]; [reflexivity|].
  cbn [replace_char app]. rewrite IH.
  destruct (c =? old)%N; [rewrite <- app_assoc|]; reflexivity.
Qed.

(** X2. The content drawn for a message has no line feed left in it:
    each one is replaced by the four characters of a break tag, so the
    text grows by three characters per line feed; the replacement works
    piece by piece, and between two line feeds the text is kept as it
    is. *)
Theorem shown_content_has_no_line_feed (msg : message) :
  ExportTab.no_sep 10 (shown_content msg) = true
  /\ length (shown_content msg)
     = (length (content msg) + 3 * count_occ N.eq_dec (content msg) 10%N)%nat
  /\ (forall before after : str,
        content msg = before ++ [10%N] ++ after ->
        shown_content msg
        = replace_char 10 (py "<br>") before ++ py "<br>"
            ++ replace_char 10 (py "<br>") after).
Proof.
  unfold shown_content.
  split; [|split].
  - apply replace_char_no_old. reflexivity.
  - pose proof (replace_char_length 10 (py "<br>") (content msg)) as H.
    change (length (py "<br>")) with 4%nat in H. lia.
  - intros before after ->. rewrite !replace_char_app.
    cbn [replace_char N.eqb Pos.eqb app]. rewrite app_nil_r. reflexivity.
Qed.

Lemma chat_message_contains_shown (msg : message) :
  contains (shown_content msg) (chat_message msg).
Proof.
  exists ((py "<div class=" ++ dq ++ py "chat-message " ++ role_class msg
             ++ dq ++ py ">")
            ++ py "<div class=" ++ dq ++ py "message-content" ++ dq
            ++ py ">"),
    (py "</div>"
       ++ (py "<div class=" ++ dq ++ py "timestamp" ++ dq ++ py ">"
             ++ timestamp msg ++ py "</div>")
       ++ py "</div>").
  unfold chat_message. rewrite <- !app_assoc. reflexivity.
Qed.

(** X3. The markup is not escaped: when the content of a message has no
    line feed, the block drawn for it holds the content character for
    character, whatever the characters are. *)
Theorem content_drawn_verbatim (msg : message) :
  ExportTab.no_sep 10 (content msg) = true ->
  shown_content msg = content msg
  /\ contains (content msg) (chat_message msg).
Proof.
  intro H.
  assert (Hid : shown_content msg = content msg)
    by (apply replace_char_id; exact H).
  split; [exact Hid|].
  rewrite <- Hid at 1. apply chat_message_contains_shown.
Qed.

Lemma content_drawn_verbatim_witness :
  let msg := {| role := py "user";
                content := py "<b>salinity</b> & <i>depth</i> > 200";
                timestamp := py "09:41" |} in
  ExportTab.no_sep 10 (content msg) = true
  /\ shown_content msg = content msg
  /\ contains (content msg) (chat_message msg).
Proof.
  intro msg. split; [reflexivity|].
  apply (content_drawn_verbatim msg). reflexivity.
Defined.
End ChatFacts.

Section ChatLines.

Import ChatView.

Lemma role_class_no_line_feed (msg : message) :
  ExportTab.no_sep 10 (role_class msg) = true.
Proof.
  unfold role_class.
  destruct (eqb (role msg) (py "assistant")); reflexivity.
Qed.

Lemma chat_message_no_line_feed (msg : message) :
  ExportTab.no_sep 10 (timestamp msg) = true ->
  ExportTab.no_sep 10 (chat_message msg) = true.
Proof.
  intro Hts.
  pose proof (role_class_no_line_feed msg) as Hrole.
  assert (Hshown : ExportTab.no_sep 10 (shown_content msg) = true)
    by (apply replace_char_no_old; reflexivity).
  unfold ExportTab.no_sep in *. unfold chat_message.
  rewrite !forallb_app, Hts, Hrole, Hshown. reflexivity.
Qed.

Lemma chat_parts_no_line_feed (log : list message) :
  forallb (fun m => ExportTab.no_sep 10 (timestamp m)) log = true ->
  forallb (ExportTab.no_sep 10) (List.map chat_message log) = true.
Proof.
  induction log as [|m log IH]; [reflexivity|].
  intro H. cbn [forallb] in H. apply andb_prop in H. destruct H as [Hm Hlog].
  cbn [List.map forallb].
  rewrite (chat_message_no_line_feed m Hm), (IH Hlog). reflexivity.
Qed.

(** X5. The chat markup has one line per part: when no time stamp of
    the log holds a line feed, splitting the markup at its line feeds
    gives back the parts, so a line feed typed into a message cannot
    break a block over two lines. *)
Theorem chat_html_splits_into_parts (log : list message) :
  forallb (fun m => ExportTab.no_sep 10 (timestamp m)) log = true ->
  ExportTab.split_on 10 (chat_html log) = chat_html_parts log
  /\ length (ExportTab.split_on 10 (chat_html log)) = (length log + 2)%nat.
Proof.
  intro H.
  assert (Hsplit : ExportTab.split_on 10 (chat_html log)
                   = chat_html_parts log).
  { unfold chat_html, lf. apply split_on_join.
    - rewrite chat_html_parts_eq. discriminate.
    - rewrite chat_html_parts_eq. cbn [forallb].
      rewrite forallb_app, (chat_parts_no_line_feed log H). reflexivity. }
  split; [exact Hsplit|].
  rewrite Hsplit, chat_html_parts_eq. simpl.
  rewrite length_app, length_map. simpl. lia.
Qed.

Lemma chat_html_splits_into_parts_witness :
  let log := [ greeting;
               {| role := py "user"; content := [108; 10; 10; 109]%N;
                  timestamp := py "09:41" |} ] in
  forallb (fun m => ExportTab.no_sep 10 (timestamp m)) log = true
  /\ ExportTab.split_on 10 (chat_html log) = chat_html_parts log
  /\ length (ExportTab.split_on 10 (chat_html log)) = 4%nat.
Proof.
  intro log. split; [reflexivity|].
  apply (chat_html_splits_into_parts log). reflexivity.
Defined.

Lemma role_class_appended (w : widgets) (clk : clock) :
  List.map role_class (appended w clk)
  = if accepted w then [py "user"; py "assistant"] else [].
Proof.
  unfold appended, accepted.
  destruct (first_clicked w (enumerate suggested_queries)) as [[i q]|];
    [reflexivity|].
  destruct (button w (py "send_button") && send_guard (user_input w));
    reflexivity.
Qed.

Lemma role_class_appended_all (inputs : list (widgets * clock)) :
  List.map role_class (appended_all inputs)
  = List.concat
      (repeat [py "user"; py "assistant"] (count_accepted inputs)).
Proof.
  unfold appended_all, count_accepted.
  induction inputs as [|[w clk] rest IH]; [reflexivity|].
  cbn [List.map List.concat List.filter fst snd].
  rewrite map_app, role_class_appended, IH.
  destruct (accepted w); reflexivity.
Qed.

(** X4. After any session the chat shows the greeting on the assistant
    side, then for each accepted interaction one block on the user side
    and one on the assistant side, in that order, and nothing else:
    with N accepted interactions the markup has [2 * N + 3] parts. *)
Theorem chat_sides_alternate (inputs : list (widgets * clock)) :
  let log := log_of (session inputs (exec initialize new_session)) in
  List.map role_class log
  = py "assistant"
      :: List.concat
           (repeat [py "user"; py "assistant"] (count_accepted inputs))
  /\ length (chat_html_parts log) = (2 * count_accepted inputs + 3)%nat.
Proof.
  intro log. subst log.
  rewrite initialize_new_session, session_with_log.
  change (log_of (with_log ?l)) with l.
  split.
  - rewrite map_app, role_class_appended_all. reflexivity.
  - rewrite chat_html_parts_eq. simpl.
    rewrite length_app, length_map, length_appended_all. simpl. lia.
Qed.

End ChatLines.

(** ** Runs with any widget state *)

(** X6. A run of the script never fails on a missing log: from any
    session state, whatever the widgets report, it ends normally or in
    [st.rerun()], and the log is there afterwards. The seeding at the
    top is what makes it so: the handlers alone, on a state without
    the key, raise and leave the state as it was. *)
Theorem run_never_misses_the_log (w : widgets) (clk : clock)
    (s : session_state) :
  fst (script_run w clk s) <> Raise AttributeError
  /\ messages (snd (script_run w clk s)) <> None
  /\ (forall query : str,
        quick_query_handler clk query new_session
        = (Raise AttributeError, new_session))
  /\ (send_guard (user_input w) = true ->
      send_button_handler w clk new_session
      = (Raise AttributeError, new_session)).
Proof.
  rewrite script_run_spec.
  split; [|split; [|split]].
  - simpl. destruct (accepted w); discriminate.
  - discriminate.
  - reflexivity.
  - intro H. unfold send_button_handler. rewrite H. reflexivity.
Qed.

(** X7. A run in which no quick-query button and not the Send button is
    pressed ends normally and leaves a session that has a log exactly
    as it was, whatever stands in the text box. *)
Theorem idle_run_changes_nothing (w : widgets) (clk : clock)
    (log : list message) :
  (forall i : nat, (i < 4)%nat -> button w (quick_key i) = false) ->
  button w (py "send_button") = false ->
  script_run w clk (with_log log) = (Ok tt, with_log log).
Proof.
  intros Hquick Hsend. rewrite script_run_spec.
  unfold accepted, appended.
  cbn [enumerate enumerate_from suggested_queries first_clicked].
  rewrite (Hquick 0%nat), (Hquick 1%nat), (Hquick 2%nat), (Hquick 3%nat)
    by lia.
  rewrite Hsend. cbn [andb].
  unfold log_at_start, with_log. cbn [messages].
  rewrite app_nil_r. reflexivity.
Qed.

Lemma idle_run_changes_nothing_witness :
  let w := no_click (click_send (py "half a question")) in
  let clk := {| now := py "09:41"; now2 := py "09:41" |} in
  script_run w clk (with_log [greeting]) = (Ok tt, with_log [greeting]).
Proof.
  intros w clk.
  apply (idle_run_changes_nothing w clk [greeting]); reflexivity.
Defined.

Lemma first_clicked_enumerate (w : widgets) (l : list str) :
  forall (start i : nat) (q : str),
    l !! i = Some q ->
    (forall j : nat, (j < i)%nat ->
       button w (quick_key (start + j)) = false) ->
    button w (quick_key (start + i)) = true ->
    first_clicked w (enumerate_from start l) = Some ((start + i)%nat, q).
Proof.
  induction l as [|p l IH]; intros start i q Hi Hbefore Hhere.
  - destruct i; discriminate Hi.
  - destruct i as [|i]; cbn [enumerate_from first_clicked].
    + injection Hi as ->. rewrite Nat.add_0_r in Hhere.
      rewrite Hhere, Nat.add_0_r. reflexivity.
    + pose proof (Hbefore 0%nat ltac:(lia)) as H0.
      rewrite Nat.add_0_r in H0. rewrite H0.
      rewrite <- Nat.add_succ_comm.
      apply IH; [exact Hi| |rewrite Nat.add_succ_comm; exact Hhere].
      intros j Hj. rewrite Nat.add_succ_comm. apply Hbefore. lia.
Qed.

(** X8. One query per run, the first button in the order of the page:
    when several buttons are reported pressed, the run handles the
    quick query whose button comes first and ends there, so the quick
    queries after it and the Send button with its text are not looked
    at. *)
Theorem first_pressed_button_wins (w : widgets) (clk : clock)
    (s : session_state) (i : nat) (q : str) :
  suggested_queries !! i = Some q ->
  (forall j : nat, (j < i)%nat -> button w (quick_key j) = false) ->
  button w (quick_key i) = true ->
  script_run w clk s
  = (Raise RerunException,
     with_log (log_at_start s
                 ++ [user_message q clk;
                     assistant_message (ai_resp q) clk])).
Proof.
  intros Hq Hbefore Hhere. rewrite script_run_spec.
  unfold accepted, appended, enumerate.
  rewrite (first_clicked_enumerate w suggested_queries 0 i q Hq Hbefore Hhere).
  reflexivity.
Qed.

Lemma first_pressed_button_wins_witness :
  let w := {| button := fun key => negb (eqb key (quick_key 0));
              user_input := py "Oxygen at 50m" |} in
  let clk := {| now := py "09:41"; now2 := py "09:42" |} in
  button w (py "send_button") = true
  /\ button w (quick_key 2) = true
  /\ script_run w clk new_session
     = (Raise RerunException,
        with_log ([greeting]
                    ++ [user_message (py "Salinity trends last 6 months") clk;
                        assistant_message
                          (ai_resp (py "Salinity trends last 6 months"))
                          clk])).
Proof.
  intros w clk. split; [reflexivity|]. split; [reflexivity|].
  apply (first_pressed_button_wins w clk new_session 1
           (py "Salinity trends last 6 months")).
  - reflexivity.
  - intros j Hj. assert (j = 0%nat) as -> by lia. reflexivity.
  - reflexivity.
Defined.

(** ** What a session leaves in the log *)

Lemma user_contents_appended (w : widgets) (clk : clock) :
  List.map content (List.filter is_user (appended w clk))
  = match accepted_query w with Some q => [q] | None => [] end.
Proof.
  unfold appended, accepted_query.
  destruct (first_clicked w (enumerate suggested_queries)) as [[i q]|];
    [reflexivity|].
  destruct (button w (py "send_button") && send_guard (user_input w));
    reflexivity.
Qed.

(** X9. The log keeps the accepted queries, each once and in the order
    they were asked: the contents of its user messages are the queries
    of the accepted interactions, the text of the button for a quick
    query and the text of the box, as typed, for Send. *)
Theorem log_keeps_the_queries (inputs : list (widgets * clock)) :
  List.map content
    (List.filter is_user
       (log_of (session inputs (exec initialize new_session))))
  = accepted_queries inputs
  /\ length (accepted_queries inputs) = count_accepted inputs.
Proof.
  rewrite initialize_new_session, session_with_log.
  change (log_of (with_log ?l)) with l.
  rewrite List.filter_app. change (List.filter is_user [greeting]) with (@nil message).
  cbn [app]. unfold appended_all, count_accepted.
  induction inputs as [|[w clk] rest [IH1 IH2]]; [split; reflexivity|].
  cbn [List.map List.concat fst snd accepted_queries List.filter].
  rewrite List.filter_app, map_app, user_contents_appended, IH1.
  assert (Hacc : accepted w
                 = match accepted_query w with
                   | Some _ => true
                   | None => false
                   end).
  { unfold accepted, accepted_query.
    destruct (first_clicked w (enumerate suggested_queries)) as [[i q]|];
      [reflexivity|].
    destruct (button w (py "send_button") && send_guard (user_input w));
      reflexivity. }
  rewrite Hacc.
  destruct (accepted_query w) as [q|]; cbn [app length]; rewrite ?IH2;
    split; reflexivity.
Qed.

(** X10. The answer of the text box is never an answer of the lookup:
    whatever is typed and whatever query is looked up, the generic
    answer of the Send handler differs from the canned responses and
    from the default of [responses.get]. *)
Theorem typed_answer_is_never_canned (text query : str) :
  ai_response text <> ai_resp query.
Proof.
  unfold ai_resp, dict_get, responses. cbn [dict_lookup].
  repeat match goal with
         | |- context [eqb ?k query] => destruct (eqb k query)
         end;
    unfold ai_response; intro H; vm_compute in H; discriminate H.
Qed.

Lemma In_appended_all (inputs : list (widgets * clock)) (m : message) :
  In m (appended_all inputs) ->
  exists (w : widgets) (clk : clock), In m (appended w clk).
Proof.
  unfold appended_all.
  induction inputs as [|[w clk] rest IH]; [intros []|].
  cbn [List.map List.concat fst snd]. intro H.
  apply in_app_or in H. destruct H as [H|H]; [exists w, clk; exact H|].
  exact (IH H).
Qed.

Lemma quick_default_not_canned (w : widgets) (i : nat) (q : str) :
  first_clicked w (enumerate suggested_queries) = Some (i, q) ->
  ai_resp q <> quick_default
  /\ exists key : str, dict_lookup responses key = Some (ai_resp q).
Proof.
  intro H. apply first_clicked_In in H. simpl in H.
  destruct H as [H|[H|[H|[H|[]]]]]; injection H as _ <-;
    match goal with
    | |- ai_resp ?k <> _ /\ _ =>
        split; [vm_compute; discriminate|exists k; vm_compute; reflexivity]
    end.
Qed.

(** X11. Every assistant message of a log is the greeting, a canned
    response of [responses], or the generic answer to a text the Send
    guard let through; the default of [responses.get] is never an
    assistant message. *)
Theorem assistant_messages_classified (inputs : list (widgets * clock))
    (m : message) :
  In m (log_of (session inputs (exec initialize new_session))) ->
  role m = py "assistant" ->
  (m = greeting
   \/ (exists key : str, dict_lookup responses key = Some (content m))
   \/ (exists text : str,
         send_guard text = true /\ content m = ai_response text))
  /\ content m <> quick_default.
Proof.
  rewrite initialize_new_session, session_with_log.
  change (log_of (with_log ?l)) with l.
  intros Hin Hrole. apply in_app_or in Hin.
  destruct Hin as [[<-|[]]|Hin].
  - split; [left; reflexivity|vm_compute; discriminate].
  - apply In_appended_all in Hin. destruct Hin as (w & clk & Hin).
    unfold appended in Hin.
    destruct (first_clicked w (enumerate suggested_queries))
      as [[i q]|] eqn:Hq.
    + destruct Hin as [<-|[<-|[]]].
      * exfalso. exact (user_is_not_assistant Hrole).
      * destruct (quick_default_not_canned w i q Hq) as [Hne Hkey].
        split; [right; left; exact Hkey|exact Hne].
    + destruct (button w (py "send_button")); cbn [andb] in Hin;
        [|destruct Hin].
      destruct (send_guard (user_input w)) eqn:Hg; [|destruct Hin].
      destruct Hin as [<-|[<-|[]]].
      * exfalso. exact (user_is_not_assistant Hrole).
      * split.
        -- right; right. exists (user_input w). split; [exact Hg|reflexivity].
        -- cbn [content assistant_message]. unfold quick_default.
           intro H. unfold ai_response in H. vm_compute in H. discriminate H.
Qed.

Lemma assistant_messages_classified_witness :
  let clk := {| now := py "09:41"; now2 := py "09:42" |} in
  let inputs := [ (click_quick 0 (py ""), clk);
                  (click_send (py "Oxygen at 50m"), clk) ] in
  let m := assistant_message (ai_response (py "Oxygen at 50m")) clk in
  (m = greeting
   \/ (exists key : str, dict_lookup responses key = Some (content m))
   \/ (exists text : str,
         send_guard text = true /\ content m = ai_response text))
  /\ content m <> quick_default.
Proof.
  intros clk inputs m.
  apply (assistant_messages_classified inputs m).
  - vm_compute. right. right. right. right. left. reflexivity.
  - reflexivity.
Defined.

(** ** The export tab, for any format *)

Section ExportDrawing.

Import ExportTab.

Context {value : Type}.
Variable csv_repr : value -> str.
Variable linesep : str.
Variable src : sample_source (value := value).

(** X12. Whatever format is selected, the tab draws exactly one answer
    to it, a download button or a warning, never both and never
    neither: the download button when the format is "CSV", spelled
    so, and the warning for every other text. *)
Theorem one_answer_per_format (w : export_widgets) :
  let drawn := export_tab csv_repr linesep w src in
  length (List.filter (fun e => is_download e || is_warning e) drawn)
  = 1%nat
  /\ existsb is_download drawn = eqb (export_format w) (py "CSV")
  /\ existsb is_warning drawn = negb (eqb (export_format w) (py "CSV")).
Proof.
  intro drawn. subst drawn.
  unfold export_tab, export_download, export_options, export_branch.
  destruct (generate_export w);
    destruct (eqb (export_format w) (py "CSV"));
    [| destruct (eqb (export_format w) (py "Excel")) |
     | destruct (eqb (export_format w) (py "Excel"))];
    repeat split; reflexivity.
Qed.

(** X13. "Generate Export" only adds its banner: pressed, the tab draws
    "Your data is ready for download!" for every format, also one for
    which it draws no download button, and everything else the tab
    draws is what it draws when the button is not pressed. *)
Theorem generate_only_adds_banner (w : export_widgets) :
  let drawn pressed :=
    export_tab csv_repr linesep (with_generate pressed w) src in
  Success (py "Your data is ready for download!") ∈ drawn true
  /\ List.filter (fun e => negb (is_success e)) (drawn true) = drawn false
  /\ existsb is_success (drawn false) = false
  /\ existsb is_download (drawn true) = eqb (export_format w) (py "CSV").
Proof.
  intro drawn. subst drawn.
  unfold export_tab, export_download, export_options, export_branch,
    with_generate.
  cbn [generate_export export_format].
  split; [|split; [|split]].
  - cbn [app]. apply list_elem_of_further, list_elem_of_further,
      list_elem_of_here.
  - destruct (eqb (export_format w) (py "CSV"));
      [|destruct (eqb (export_format w) (py "Excel"))]; reflexivity.
  - destruct (eqb (export_format w) (py "CSV"));
      [|destruct (eqb (export_format w) (py "Excel"))]; reflexivity.
  - destruct (eqb (export_format w) (py "CSV"));
      [|destruct (eqb (export_format w) (py "Excel"))]; reflexivity.
Qed.

End ExportDrawing.

(** ** The Send guard, character by character *)

Lemma forallb_isspace_existsb (text : str) :
  forallb isspace text = negb (existsb (fun c => negb (isspace c)) text).
Proof.
  induction text as [|c text IH]; [reflexivity|].
  simpl. rewrite IH. destruct (isspace c); reflexivity.
Qed.

(** X14. A click on Send is accepted exactly when the text of the box
    has a character that is not white space: then the log grows by two
    messages, otherwise by none. *)
Theorem send_accepted_iff_visible_character (text : str) (clk : clock)
    (log : list message) :
  accepted (click_send text)
  = existsb (fun c => negb (isspace c)) text
  /\ length (log_of (exec (interaction (click_send text) clk) (with_log log)))
     = (length log
        + if existsb (fun c => negb (isspace c)) text then 2 else 0)%nat.
Proof.
  assert (Hguard : send_guard text
                   = existsb (fun c => negb (isspace c)) text).
  { pose proof (send_guard_false_iff text) as H.
    rewrite forallb_isspace_existsb in H.
    destruct (send_guard text), (existsb _ text); try reflexivity.
    - destruct H as [_ H]. discriminate (H eq_refl).
    - destruct H as [H _]. discriminate (H eq_refl). }
  assert (Hacc : accepted (click_send text) = send_guard text).
  { unfold accepted.
    replace (first_clicked (click_send text) (enumerate suggested_queries))
      with (@None (nat * str)) by (vm_compute; reflexivity).
    replace (button (click_send text) (py "send_button")) with true
      by (vm_compute; reflexivity).
    reflexivity. }
  split; [rewrite Hacc; exact Hguard|].
  rewrite log_of_interaction, length_app, length_appended, Hacc, Hguard.
  reflexivity.
Qed.
